(** * The whois helper of Home Assistant: [homeassistant/components/whois/helper.py]

    A shallow embedding of [query] and of the field-extraction helpers it
    calls, together with the properties of the written specification that
    concern them.

    Python values are dynamically typed, so the raw result of the external
    library is a dictionary (a [gmap]) from field names to values of the
    type [pyval].  Exceptions are explicit: a computation that can raise
    returns a [result]. *)

From Stdlib Require Import String Ascii ZArith List Bool Lia.
From stdpp Require Import gmap strings list.

Local Open Scope string_scope.

(** ** Python values *)

(** [datetime.datetime(year, month, day, hour, minute, second, microsecond,
    tzinfo=...)].  The time zone is kept by name. *)
Record datetime := mk_datetime {
  year : Z;
  month : Z;
  day : Z;
  hour : Z;
  minute : Z;
  second : Z;
  microsecond : Z;
  tzinfo : option string
}.

(** The values a raw whois entry may hold: [None], booleans, numbers,
    strings, timestamps and lists of those. *)
#[warnings="-register-all"]
Inductive pyval :=
| PNone
| PBool (b : bool)
| PInt (n : Z)
| PStr (s : string)
| PDatetime (d : datetime)
| PList (l : list pyval).

(** Python truthiness, the test behind [not v] and [a or b]:
    [None], [False], [0], [""] and [[]] are false, everything else is true
    (a [datetime] is always true). *)
Definition truthy (v : pyval) : bool :=
  match v with
  | PNone => false
  | PBool b => b
  | PInt n => negb (Z.eqb n 0)
  | PStr s => negb (String.eqb s "")
  | PDatetime _ => true
  | PList l => match l with [] => false | _ :: _ => true end
  end.

(** [isinstance(v, list)] *)
Definition is_list (v : pyval) : bool :=
  match v with PList _ => true | _ => false end.

(** [isinstance(v, datetime)] *)
Definition is_datetime (v : pyval) : bool :=
  match v with PDatetime _ => true | _ => false end.

(** [a or b] *)
Definition py_or (a b : pyval) : pyval := if truthy a then a else b.

(** ** Strings *)

(** [str.lower] on one character of an ASCII string. *)
Definition ascii_lower (c : ascii) : ascii :=
  let n := nat_of_ascii c in
  if Nat.leb 65 n && Nat.leb n 90 then ascii_of_nat (n + 32) else c.

(** [s.lower()] *)
Fixpoint lower (s : string) : string :=
  match s with
  | EmptyString => EmptyString
  | String c s' => String (ascii_lower c) (lower s')
  end.

(** [sub in s] for two strings: [sub] occurs in [s] as a substring. *)
Fixpoint str_in (sub s : string) : bool :=
  if String.prefix sub s then true
  else match s with
       | EmptyString => false
       | String _ s' => str_in sub s'
       end.

(** What [str_in] decides. *)
Definition contains (sub s : string) : Prop :=
  exists pre post, s = pre ++ sub ++ post.

(** ** Exceptions *)

(** The classes of exception that occur: [PywhoisError] of the external
    library with its message [str(ex)], any other subclass of [Exception]
    the library may raise, the two exceptions of the helper itself and the
    [AttributeError] Python raises for a method a value does not have. *)
Inductive exn :=
| PywhoisError (msg : string)
| OtherException (cls msg : string)
| WhoisUnknownTLD
| GenericWhoisError
| AttributeError.

Inductive result (A : Type) :=
| Ok (a : A)
| Raise (e : exn).

Arguments Ok {A} a.
Arguments Raise {A} e.

(** Sequencing: an exception raised by the first computation propagates. *)
#[global] Instance result_bind : MBind result :=
  fun A B (k : A -> result B) (r : result A) =>
    match r with
    | Ok a => k a
    | Raise e => Raise e
    end.

(** ** The record [Domain] *)

(** [@dataclass(kw_only=True) class Domain]; every field is declared
    [Any = None]. *)
Record Domain := mk_Domain {
  admin : pyval;
  creation_date : pyval;
  dnssec : pyval;
  expiration_date : pyval;
  last_updated : pyval;
  name_servers : pyval;
  owner : pyval;
  registrar : pyval;
  reseller : pyval;
  registrant : pyval;
  status : pyval;
  statuses : pyval
}.

(** A [WhoisEntry] is a dictionary from field names to values. *)
Abbreviation WhoisEntry := (gmap string pyval).

(** ** The field-extraction helpers *)

(** [get_attr_generic_single(whois, attr_name)].  The guard has dropped the
    empty list, so [attr[0]] is evaluated on a non-empty list only. *)
Definition get_attr_generic_single (whois : WhoisEntry) (attr_name : string) : pyval :=
  match whois !! attr_name with
  | None => PNone
  | Some attr =>
      if negb (truthy attr) then PNone
      else match attr with
           | PList l => match l with x :: _ => x | [] => PNone end
           | _ => attr
           end
  end.

(** [get_attr_generic_date(whois, attr_name)] *)
Definition get_attr_generic_date (whois : WhoisEntry) (attr_name : string) : pyval :=
  let attr := get_attr_generic_single whois attr_name in
  if is_datetime attr then attr else PNone.

(** [attr if isinstance(attr, list) else [attr]] *)
Definition as_list (attr : pyval) : list pyval :=
  match attr with
  | PList l => l
  | _ => [attr]
  end.

(** [get_attr_statuses(whois)] *)
Definition get_attr_statuses (whois : WhoisEntry) : pyval :=
  match whois !! "status" with
  | None => PNone
  | Some attr => if negb (truthy attr) then PNone else PList (as_list attr)
  end.

(** [v.lower()] for an arbitrary value: only a string has the method. *)
Definition lower_method (v : pyval) : result string :=
  match v with
  | PStr s => Ok (lower s)
  | _ => Raise AttributeError
  end.

(** [any(v.lower() != "unsigned" for v in attr)]: the generator is consumed
    from the left and [any] stops at the first true element. *)
Fixpoint any_not_unsigned (attr : list pyval) : result bool :=
  match attr with
  | [] => Ok false
  | v :: rest =>
      s ← lower_method v;
      if negb (String.eqb s "unsigned") then Ok true else any_not_unsigned rest
  end.

(** [get_attr_dnssec(whois)] *)
Definition get_attr_dnssec (whois : WhoisEntry) : result bool :=
  match whois !! "dnssec" with
  | None => Ok false
  | Some attr =>
      if negb (truthy attr) then Ok false
      else any_not_unsigned (as_list attr)
  end.

Section Helper.

(** [str(v)] for a value that is not a string.  The rendering of numbers,
    timestamps and lists is the interpreter's; nothing below depends on
    it, so it is a parameter. *)
Variable str_other : pyval -> string.

(** [str(v)] *)
Definition py_str (v : pyval) : string :=
  match v with
  | PStr s => s
  | _ => str_other v
  end.

(** [get_attr_name_servers(whois)] *)
Definition get_attr_name_servers (whois : WhoisEntry) : pyval :=
  match whois !! "name_servers" with
  | None => PNone
  | Some attr =>
      if negb (truthy attr) then PNone
      else PList (map (fun n => PStr (lower (py_str n))) (as_list attr))
  end.

(** [get_attr_owner(whois)] *)
Definition get_attr_owner (whois : WhoisEntry) : pyval :=
  let owner :=
    py_or (py_or (get_attr_generic_single whois "name")
                 (get_attr_generic_single whois "org"))
          (get_attr_generic_single whois "registrant_name") in
  if truthy owner then PStr (py_str owner) else PNone.

(** [get_attr_admin(whois)]; [query] does not call it. *)
Definition get_attr_admin (whois : WhoisEntry) : pyval :=
  let admin :=
    py_or (get_attr_generic_single whois "admin")
          (get_attr_generic_single whois "admin_organization") in
  if truthy admin then PStr (py_str admin) else PNone.

(** The field mapping of [query]: the call [Domain(...)], whose keyword
    arguments are evaluated in the order they are written. *)
Definition field_mapping (wh : WhoisEntry) : result Domain :=
  let admin_v := get_attr_generic_single wh "admin" in
  let creation_date_v := get_attr_generic_date wh "creation_date" in
  let expiration_date_v := get_attr_generic_date wh "expiration_date" in
  let last_updated_v := get_attr_generic_date wh "updated_date" in
  let name_servers_v := get_attr_name_servers wh in
  let owner_v := get_attr_owner wh in
  let registrar_v := get_attr_generic_single wh "registrar" in
  let reseller_v := PNone in
  let registrant_v := get_attr_owner wh in
  dnssec_v ← get_attr_dnssec wh;
  let status_v := get_attr_generic_single wh "status" in
  let statuses_v := get_attr_statuses wh in
  Ok {| admin := admin_v;
        creation_date := creation_date_v;
        dnssec := PBool dnssec_v;
        expiration_date := expiration_date_v;
        last_updated := last_updated_v;
        name_servers := name_servers_v;
        owner := owner_v;
        registrar := registrar_v;
        reseller := reseller_v;
        registrant := registrant_v;
        status := status_v;
        statuses := statuses_v |}.

(** The external call [ext_whois.whois(domain)]: it returns [None] or an
    entry, or raises. *)
Variable ext_whois : string -> result (option WhoisEntry).

(** The [try] statement of [query]: the value of [wh] after it, or the
    exception it raises. *)
Definition lookup (domain : string) : result (option WhoisEntry) :=
  match ext_whois domain with
  | Ok wh => Ok wh
  | Raise (PywhoisError msg) =>
      if str_in "No whois server is known for this kind of object" msg
         || str_in "This TLD has no whois server" msg
      then Raise WhoisUnknownTLD
      else if str_in "No match for" msg then Ok None
      else Raise GenericWhoisError
  | Raise _ => Raise GenericWhoisError
  end.

(** [query(domain)] *)
Definition query (domain : string) : result (option Domain) :=
  wh ← lookup domain;
  match wh with
  | None => Ok None
  | Some wh => d ← field_mapping wh; Ok (Some d)
  end.

End Helper.

(** ** Vocabulary of the specification *)

(** The guard every helper starts with,
    [attr_name not in whois or not whois[attr_name]]: the field is absent,
    or its value is empty in Python's sense ([None], [False], [0], [""],
    [[]]). *)
Definition absent_or_empty (whois : WhoisEntry) (attr_name : string) : bool :=
  match whois !! attr_name with
  | None => true
  | Some attr => negb (truthy attr)
  end.

(** A value that is not a sequence. *)
Definition is_scalar (v : pyval) : bool := negb (is_list v).

(** A value that is a string. *)
Definition is_str (v : pyval) : bool :=
  match v with PStr _ => true | _ => false end.

(** The values the inbound contract allows for a field: scalars,
    timestamps, booleans, and sequences of those. *)
Definition contract_item (v : pyval) : bool :=
  match v with
  | PBool _ | PInt _ | PStr _ | PDatetime _ => true
  | PNone | PList _ => false
  end.

Definition contract_value (v : pyval) : bool :=
  match v with
  | PList l => forallb contract_item l
  | _ => contract_item v
  end.

(** The sample entry of the test fixture [mock_whois]. *)
Definition mock_data : WhoisEntry :=
  <[ "domain_name" := PList [PStr "HOME-ASSISTANT.IO"] ]>
  (<[ "admin" := PStr "Admin" ]>
  (<[ "creation_date" := PDatetime (mk_datetime 2019 1 1 0 0 0 0 None) ]>
  (<[ "dnssec" := PStr "signedDelegation" ]>
  (<[ "expiration_date" := PDatetime (mk_datetime 2023 1 1 0 0 0 0 None) ]>
  (<[ "updated_date" :=
        PList [PDatetime (mk_datetime 2022 1 1 0 0 0 0 (Some "Europe/Amsterdam"));
               PDatetime (mk_datetime 2023 11 20 6 55 46 110000 None)] ]>
  (<[ "name_servers" := PList [PStr "NS1.example.COM"; PStr "ns2.EXAMPLE.com"] ]>
  (<[ "registrant_name" := PStr "registrant@example.com" ]>
  (<[ "registrar" := PStr "My Registrar" ]>
  (<[ "status" := PStr "OK" ]> ∅))))))))).

(** The fixture patches the external call to return the sample entry for
    every domain. *)
Definition mock_whois (_ : string) : result (option WhoisEntry) :=
  Ok (Some mock_data).

(** The fixture [mock_whois_missing_some_attrs]: one attribute only. *)
Definition mock_whois_missing_some_attrs (_ : string)
    : result (option WhoisEntry) :=
  Ok (Some {[ "updated_date" :=
                PDatetime (mk_datetime 2022 1 1 0 0 0 0
                             (Some "Europe/Amsterdam")) ]}).

(** The fixture [mock_whois_empty]: the library returns [None]. *)
Definition mock_whois_empty (_ : string) : result (option WhoisEntry) :=
  Ok None.

(** The record [query] builds from the sample entry. *)
Definition mock_domain : Domain :=
  {| admin := PStr "Admin";
     creation_date := PDatetime (mk_datetime 2019 1 1 0 0 0 0 None);
     dnssec := PBool true;
     expiration_date := PDatetime (mk_datetime 2023 1 1 0 0 0 0 None);
     last_updated :=
       PDatetime (mk_datetime 2022 1 1 0 0 0 0 (Some "Europe/Amsterdam"));
     name_servers := PList [PStr "ns1.example.com"; PStr "ns2.example.com"];
     owner := PStr "registrant@example.com";
     registrar := PStr "My Registrar";
     reseller := PNone;
     registrant := PStr "registrant@example.com";
     status := PStr "OK";
     statuses := PList [PStr "OK"] |}.

(** The owner as the specification words it: the candidates in priority
    order, the first non-empty one cast to a string, null when there is
    none. *)
Definition owner_candidates (whois : WhoisEntry) : list pyval :=
  map (get_attr_generic_single whois) ["name"; "org"; "registrant_name"].

Definition first_nonempty_as_str (str_other : pyval -> string)
    (candidates : list pyval) : pyval :=
  match List.find truthy candidates with
  | Some v => PStr (py_str str_other v)
  | None => PNone
  end.

(** The DNSSEC flag as the specification words it, for entries that are
    strings: some entry differs from ["unsigned"] once lower-cased. *)
Definition signed_entry (v : pyval) : bool :=
  match v with
  | PStr s => negb (String.eqb (lower s) "unsigned")
  | _ => true
  end.

(** A rendering of non-string values, for the concrete instances below. *)
Definition str_none (_ : pyval) : string := "".

(** The keys of the entry that the field mapping of [query] reads. *)
Definition read_keys : list string :=
  ["admin"; "creation_date"; "expiration_date"; "updated_date";
   "name_servers"; "name"; "org"; "registrant_name"; "registrar";
   "dnssec"; "status"].

(** An entry that is the string "unsigned" in some casing: the entries the
    generator of [get_attr_dnssec] steps over. *)
Definition unsigned_entry (v : pyval) : bool :=
  match v with
  | PStr s => String.eqb (lower s) "unsigned"
  | _ => false
  end.

(** [None] or a [datetime]. *)
Definition date_or_none (v : pyval) : bool :=
  match v with
  | PNone | PDatetime _ => true
  | _ => false
  end.

(** ** Strings: substring test and lower-casing *)

Lemma prefix_app (sub s : string) :
  String.prefix sub s = true <-> exists post, s = (sub ++ post)%string.
Proof.
  revert s. induction sub as [|a sub IH]; intros s.
  - destruct s; simpl; (split; [intros _; eexists; reflexivity | reflexivity]).
  - destruct s as [|b s]; simpl.
    + split; [discriminate | intros [post H]; discriminate].
    + destruct (ascii_dec a b) as [->|Hne].
      * rewrite IH. split; intros [post H]; exists post.
        -- now rewrite H.
        -- now injection H.
      * split; [discriminate | intros [post H]; injection H; congruence].
Qed.

Lemma str_in_unfold (sub s : string) :
  str_in sub s =
  if String.prefix sub s then true
  else match s with
       | EmptyString => false
       | String _ s' => str_in sub s'
       end.
Proof. destruct s; reflexivity. Qed.

(** [str_in] is Python's substring test. *)
Lemma str_in_spec (sub s : string) :
  str_in sub s = true <-> contains sub s.
Proof.
  unfold contains. split.
  - induction s as [|c s IH]; rewrite str_in_unfold;
      destruct (String.prefix sub _) eqn:Hp.
    + intros _. apply prefix_app in Hp as [post ->]. exists "", post. reflexivity.
    + discriminate.
    + intros _. apply prefix_app in Hp as [post ->]. exists "", post. reflexivity.
    + intros H. destruct (IH H) as (pre & post & ->).
      exists (String c pre), post. reflexivity.
  - intros (pre & post & ->). induction pre as [|c pre IH]; rewrite str_in_unfold.
    + change ("" ++ sub ++ post)%string with (sub ++ post)%string.
      assert (String.prefix sub (sub ++ post) = true) as ->; [|reflexivity].
      apply prefix_app. now exists post.
    + change (String c pre ++ sub ++ post)%string
        with (String c (pre ++ sub ++ post)).
      destruct (String.prefix sub _); [reflexivity | exact IH].
Qed.

Lemma str_in_false (sub s : string) :
  str_in sub s = false <-> ~ contains sub s.
Proof.
  rewrite <- str_in_spec. destruct (str_in sub s); split; congruence.
Qed.

Lemma ascii_lower_idem (c : ascii) : ascii_lower (ascii_lower c) = ascii_lower c.
Proof. destruct c as [[] [] [] [] [] [] [] []]; reflexivity. Qed.

(** Lower-casing is idempotent: a lower-cased string has no capital left. *)
Lemma lower_idem (s : string) : lower (lower s) = lower s.
Proof.
  induction s as [|c s IH]; simpl; [reflexivity|].
  now rewrite ascii_lower_idem, IH.
Qed.

Lemma lower_length (s : string) : String.length (lower s) = String.length s.
Proof. induction s as [|c s IH]; simpl; congruence. Qed.

(** ** The lookup and the classification of its failures *)

Section QueryFacts.

Variable str_other : pyval -> string.
Variable ext_whois : string -> result (option WhoisEntry).

Lemma query_of_lookup (domain : string) (wh : option WhoisEntry) :
  lookup ext_whois domain = Ok wh ->
  query str_other ext_whois domain =
  match wh with
  | None => Ok None
  | Some wh => d ← field_mapping str_other wh; Ok (Some d)
  end.
Proof. intros H. unfold query. rewrite H. reflexivity. Qed.

Lemma query_lookup_raise (domain : string) (e : exn) :
  lookup ext_whois domain = Raise e ->
  query str_other ext_whois domain = Raise e.
Proof. intros H. unfold query. rewrite H. reflexivity. Qed.

(** When the library returns, [query] maps what it returned. *)
Lemma query_returned (domain : string) (wh : WhoisEntry) :
  ext_whois domain = Ok (Some wh) ->
  query str_other ext_whois domain = d ← field_mapping str_other wh; Ok (Some d).
Proof.
  intros H. apply (query_of_lookup domain (Some wh)).
  unfold lookup. rewrite H. reflexivity.
Qed.

(** A present entry never gives the absent record. *)
Lemma query_returned_not_absent (domain : string) (wh : WhoisEntry) :
  ext_whois domain = Ok (Some wh) ->
  query str_other ext_whois domain <> Ok None.
Proof.
  intros H. rewrite (query_returned _ _ H).
  destruct (field_mapping str_other wh); discriminate.
Qed.

(** Claim C2.  If the external lookup raises its [PywhoisError] with a
    message that contains "No whois server is known for this kind of
    object" or "This TLD has no whois server", then [query] raises
    [WhoisUnknownTLD] and so returns no record. *)
Theorem query_unknown_tld (domain msg : string) :
  ext_whois domain = Raise (PywhoisError msg) ->
  contains "No whois server is known for this kind of object" msg
  \/ contains "This TLD has no whois server" msg ->
  query str_other ext_whois domain = Raise WhoisUnknownTLD.
Proof.
  intros Hext Hmsg. apply query_lookup_raise.
  unfold lookup. rewrite Hext.
  destruct Hmsg as [H | H]; apply str_in_spec in H; rewrite H.
  - reflexivity.
  - rewrite orb_true_r. reflexivity.
Qed.

(** The lookup step after a [PywhoisError], by the three substring tests. *)
Lemma lookup_pywhois_error (domain msg : string) :
  ext_whois domain = Raise (PywhoisError msg) ->
  lookup ext_whois domain =
  if str_in "No whois server is known for this kind of object" msg
     || str_in "This TLD has no whois server" msg
  then Raise WhoisUnknownTLD
  else if str_in "No match for" msg then Ok None
  else Raise GenericWhoisError.
Proof. intros H. unfold lookup. rewrite H. reflexivity. Qed.

(** Claim C3, as amended.  [query] returns the absent record exactly when
    the external lookup returns [None], or raises its [PywhoisError] with a
    message that contains "No match for" and neither of the two messages
    that mean an unknown TLD: those are tested first and win. *)
Theorem query_absent_iff (domain : string) :
  query str_other ext_whois domain = Ok None <->
  ext_whois domain = Ok None
  \/ exists msg,
       ext_whois domain = Raise (PywhoisError msg)
       /\ contains "No match for" msg
       /\ ~ contains "No whois server is known for this kind of object" msg
       /\ ~ contains "This TLD has no whois server" msg.
Proof.
  destruct (ext_whois domain) as [[wh|]|e] eqn:Hext.
  - split.
    + intros H. now apply query_returned_not_absent in Hext.
    + intros [H | (msg & H & _)]; discriminate.
  - split; [now left|]. intros _.
    apply (query_of_lookup domain None). unfold lookup. now rewrite Hext.
  - destruct e as [msg| | | |];
      try (split;
           [ unfold query, lookup; rewrite Hext; discriminate
           | intros [H | (msg' & H & _)]; discriminate ]).
    unfold query. rewrite (lookup_pywhois_error _ _ Hext). split.
    + intros H. right. exists msg.
      destruct (str_in "No whois server is known for this kind of object" msg) eqn:H1;
        [discriminate|].
      destruct (str_in "This TLD has no whois server" msg) eqn:H2; [discriminate|].
      destruct (str_in "No match for" msg) eqn:H3; [|discriminate].
      apply str_in_spec in H3. apply str_in_false in H1, H2. auto.
    + intros [H | (msg' & H & H3 & H1 & H2)]; [discriminate|].
      injection H as <-.
      apply str_in_spec in H3. apply str_in_false in H1, H2.
      rewrite H1, H2, H3. reflexivity.
Qed.

(** Any failure of the lookup that is not one of the three recognised
    messages makes [query] raise [GenericWhoisError]: a [PywhoisError] with
    another message, or an exception of any other class. *)
Lemma query_generic_error (domain : string) (e : exn) :
  ext_whois domain = Raise e ->
  (forall msg, e = PywhoisError msg ->
     ~ contains "No whois server is known for this kind of object" msg
     /\ ~ contains "This TLD has no whois server" msg
     /\ ~ contains "No match for" msg) ->
  query str_other ext_whois domain = Raise GenericWhoisError.
Proof.
  intros Hext Hmsg. apply query_lookup_raise.
  destruct e as [msg| | | |]; try (unfold lookup; rewrite Hext; reflexivity).
  rewrite (lookup_pywhois_error _ _ Hext).
  destruct (Hmsg msg eq_refl) as (H1 & H2 & H3).
  apply str_in_false in H1, H2, H3. rewrite H1, H2, H3. reflexivity.
Qed.

(** When the lookup itself raises, only the two exceptions of the helper
    leave [query]. *)
Lemma query_lookup_failure_escapes (domain : string) (e x : exn) :
  ext_whois domain = Raise e ->
  query str_other ext_whois domain = Raise x ->
  x = WhoisUnknownTLD \/ x = GenericWhoisError.
Proof.
  intros Hext. unfold query, lookup. rewrite Hext.
  destruct e as [msg| | | |]; simpl; try (intros [= <-]; now right).
  destruct (_ || _); [intros [= <-]; now left|].
  destruct (str_in "No match for" msg); [discriminate | intros [= <-]; now right].
Qed.

End QueryFacts.

(** ** The extraction helpers *)

Lemma absent_or_empty_true (wh : WhoisEntry) (name : string) :
  absent_or_empty wh name = true <->
  wh !! name = None \/ exists attr, wh !! name = Some attr /\ truthy attr = false.
Proof.
  unfold absent_or_empty. destruct (wh !! name) as [attr|]; split.
  - intros H. right. exists attr. split; [reflexivity|].
    now apply negb_true_iff.
  - intros [H | (attr' & [= <-] & H)]; [discriminate | now rewrite H].
  - now left.
  - reflexivity.
Qed.

Lemma get_attr_generic_single_empty (wh : WhoisEntry) (name : string) :
  absent_or_empty wh name = true -> get_attr_generic_single wh name = PNone.
Proof.
  unfold absent_or_empty, get_attr_generic_single.
  destruct (wh !! name) as [attr|]; [|reflexivity]. now intros ->.
Qed.

(** A sequence gives its first element. *)
Lemma get_attr_generic_single_list (wh : WhoisEntry) (name : string)
    (x : pyval) (l : list pyval) :
  wh !! name = Some (PList (x :: l)) -> get_attr_generic_single wh name = x.
Proof. unfold get_attr_generic_single. now intros ->. Qed.

(** A non-empty scalar is used directly. *)
Lemma get_attr_generic_single_scalar (wh : WhoisEntry) (name : string) (x : pyval) :
  wh !! name = Some x -> is_scalar x = true -> truthy x = true ->
  get_attr_generic_single wh name = x.
Proof.
  unfold get_attr_generic_single. intros -> Hs Ht. rewrite Ht.
  destruct x; try reflexivity; discriminate.
Qed.

(** An empty scalar is dropped. *)
Lemma get_attr_generic_single_scalar_empty (wh : WhoisEntry) (name : string)
    (x : pyval) :
  wh !! name = Some x -> truthy x = false ->
  get_attr_generic_single wh name = PNone.
Proof. unfold get_attr_generic_single. now intros -> ->. Qed.

(** Claim C7, as amended.  For every field name and every scalar [x], the
    entry that holds the one-element sequence [[x]] always yields [x].  The
    entry that holds the bare [x] yields [x] when [x] is non-empty and null
    when [x] is empty ([None], [False], [0], the empty string).  So the two
    outputs are the same exactly when [x] is non-empty or null. *)
Theorem generic_single_list_vs_scalar (name : string) (wh1 wh2 : WhoisEntry)
    (x : pyval) :
  is_scalar x = true ->
  wh1 !! name = Some (PList [x]) ->
  wh2 !! name = Some x ->
  get_attr_generic_single wh1 name = x
  /\ (truthy x = true -> get_attr_generic_single wh2 name = x)
  /\ (truthy x = false -> get_attr_generic_single wh2 name = PNone)
  /\ (get_attr_generic_single wh1 name = get_attr_generic_single wh2 name
      <-> truthy x = true \/ x = PNone).
Proof.
  intros Hs H1 H2.
  rewrite (get_attr_generic_single_list _ _ _ _ H1).
  split; [reflexivity|].
  split; [now apply get_attr_generic_single_scalar|].
  split; [now apply get_attr_generic_single_scalar_empty|].
  destruct (truthy x) eqn:Ht.
  - rewrite (get_attr_generic_single_scalar _ _ _ H2 Hs Ht). tauto.
  - rewrite (get_attr_generic_single_scalar_empty _ _ _ H2 Ht).
    split; [now right | intros [H | H]; [discriminate | exact H]].
Qed.

(** *** DNSSEC *)

Lemma is_str_inv (v : pyval) : is_str v = true -> exists s, v = PStr s.
Proof. destruct v; try discriminate. intros _. now eexists. Qed.

(** On strings the generator of [get_attr_dnssec] never raises, and [any]
    is true exactly when some entry is not ["unsigned"] in any casing. *)
Lemma any_not_unsigned_strings (l : list pyval) :
  forallb is_str l = true ->
  any_not_unsigned l = Ok (existsb signed_entry l).
Proof.
  induction l as [|v l IH]; [reflexivity|].
  intros [Hv Hl]%andb_true_iff. destruct (is_str_inv _ Hv) as [s ->].
  cbn. destruct (negb (String.eqb (lower s) "unsigned")); [reflexivity|].
  now apply IH.
Qed.

(** The only exception the generator raises is [AttributeError], and it
    does so on an entry that is not a string. *)
Lemma any_not_unsigned_raise (l : list pyval) (e : exn) :
  any_not_unsigned l = Raise e ->
  e = AttributeError /\ Exists (fun v => is_str v = false) l.
Proof.
  induction l as [|v l IH]; [discriminate|]. cbn.
  destruct v; cbn; try (intros [= <-]; split; [reflexivity | now left]).
  destruct (negb (String.eqb (lower s) "unsigned")); [discriminate|].
  intros H. destruct (IH H) as [-> Hex]. split; [reflexivity | now right].
Qed.

Lemma get_attr_dnssec_empty (wh : WhoisEntry) :
  absent_or_empty wh "dnssec" = true -> get_attr_dnssec wh = Ok false.
Proof.
  unfold absent_or_empty, get_attr_dnssec.
  destruct (wh !! "dnssec") as [attr|]; [|reflexivity]. now intros ->.
Qed.

(** The DNSSEC rule of the specification, for entries that are strings. *)
Lemma get_attr_dnssec_strings (wh : WhoisEntry) (attr : pyval) :
  wh !! "dnssec" = Some attr ->
  truthy attr = true ->
  forallb is_str (as_list attr) = true ->
  get_attr_dnssec wh = Ok (existsb signed_entry (as_list attr)).
Proof.
  intros H Ht Hs. unfold get_attr_dnssec. rewrite H, Ht. cbn.
  now apply any_not_unsigned_strings.
Qed.

Lemma get_attr_dnssec_raise (wh : WhoisEntry) (e : exn) :
  get_attr_dnssec wh = Raise e ->
  e = AttributeError
  /\ exists attr, wh !! "dnssec" = Some attr
       /\ Exists (fun v => is_str v = false) (as_list attr).
Proof.
  unfold get_attr_dnssec. destruct (wh !! "dnssec") as [attr|]; [|discriminate].
  destruct (negb (truthy attr)); [discriminate|].
  intros [-> H]%any_not_unsigned_raise. split; [reflexivity|]. now exists attr.
Qed.

(** The examples of the specification. *)
Lemma get_attr_dnssec_examples :
  get_attr_dnssec {[ "dnssec" := PStr "signedDelegation" ]} = Ok true
  /\ get_attr_dnssec {[ "dnssec" := PStr "unsigned" ]} = Ok false
  /\ get_attr_dnssec {[ "dnssec" := PList [PStr "unsigned"; PStr "unsigned"] ]}
     = Ok false
  /\ get_attr_dnssec
       {[ "dnssec" := PList [PStr "unsigned"; PStr "signedDelegation"] ]}
     = Ok true
  /\ get_attr_dnssec ∅ = Ok false.
Proof. repeat split; vm_compute; reflexivity. Qed.

(** Claim C6.  The claim gives the DNSSEC flag for every present entry; it
    holds when the entries are strings ([get_attr_dnssec_strings],
    [get_attr_dnssec_empty], [get_attr_dnssec_examples]).  For the boolean
    [True], which is not the string "unsigned", the claim gives true, and
    [get_attr_dnssec] raises [AttributeError]: it calls [v.lower()] on the
    entry without the cast [str(v)] that [get_attr_name_servers] applies. *)
Theorem get_attr_dnssec_bool_raises :
  absent_or_empty {[ "dnssec" := PBool true ]} "dnssec" = false
  /\ existsb signed_entry (as_list (PBool true)) = true
  /\ get_attr_dnssec {[ "dnssec" := PBool true ]} = Raise AttributeError.
Proof. repeat split; vm_compute; reflexivity. Qed.

(** *** Name servers, owner and statuses *)

Section MappingFacts.

Variable str_other : pyval -> string.

(** Claim C9.  The name servers are null when the raw field is absent or
    empty.  Otherwise the raw value, a bare scalar wrapped into a
    one-element sequence, is mapped entry by entry: the output has the
    same length, its entry at each position is the lower-cased string of
    the raw entry at that position, so the order is the raw order, and no
    capital letter is left.  In particular ["NS1.EXAMPLE.com",
    "ns2.example.COM"] gives ["ns1.example.com", "ns2.example.com"]. *)
Theorem get_attr_name_servers_spec (wh : WhoisEntry) :
  (absent_or_empty wh "name_servers" = true ->
   get_attr_name_servers str_other wh = PNone)
  /\ (forall attr,
        wh !! "name_servers" = Some attr -> truthy attr = true ->
        exists out : list string,
          get_attr_name_servers str_other wh = PList (map PStr out)
          /\ length out = length (as_list attr)
          /\ (forall i n, as_list attr !! i = Some n ->
                out !! i = Some (lower (py_str str_other n)))
          /\ Forall (fun s => lower s = s) out
          /\ (is_scalar attr = true ->
              out = [lower (py_str str_other attr)]))
  /\ (wh !! "name_servers"
        = Some (PList [PStr "NS1.EXAMPLE.com"; PStr "ns2.example.COM"]) ->
      get_attr_name_servers str_other wh
      = PList [PStr "ns1.example.com"; PStr "ns2.example.com"]).
Proof.
  unfold absent_or_empty, get_attr_name_servers. repeat split.
  - destruct (wh !! "name_servers") as [attr|]; [|reflexivity]. now intros ->.
  - intros attr -> Ht. rewrite Ht. cbn.
    exists (map (fun n => lower (py_str str_other n)) (as_list attr)).
    repeat split.
    + now rewrite map_map.
    + apply length_map.
    + intros i n Hn.
      change (map ?f ?l) with (f <$> l). now rewrite list_lookup_fmap, Hn.
    + change (map ?f ?l) with (f <$> l).
      apply Forall_fmap, Forall_true. intros n. apply lower_idem.
    + destruct attr; try reflexivity; discriminate.
  - now intros ->.
Qed.

(** [get_attr_owner] is the first non-empty candidate cast to a string. *)
Lemma get_attr_owner_spec (wh : WhoisEntry) :
  get_attr_owner str_other wh
  = first_nonempty_as_str str_other (owner_candidates wh).
Proof.
  unfold get_attr_owner, first_nonempty_as_str, owner_candidates, py_or. cbn.
  generalize (get_attr_generic_single wh "name") as a,
             (get_attr_generic_single wh "org") as b,
             (get_attr_generic_single wh "registrant_name") as c.
  intros a b c.
  destruct (truthy a) eqn:Ha; cbn; rewrite ?Ha; [reflexivity|].
  destruct (truthy b) eqn:Hb; cbn; rewrite ?Hb; [reflexivity|].
  destruct (truthy c) eqn:Hc; cbn; rewrite ?Hc; reflexivity.
Qed.

Lemma first_nonempty_none (candidates : list pyval) :
  Forall (fun v => truthy v = false) candidates ->
  first_nonempty_as_str str_other candidates = PNone.
Proof.
  unfold first_nonempty_as_str. intros H.
  destruct (List.find truthy candidates) as [v|] eqn:Hf; [|reflexivity].
  apply find_some in Hf as [Hin Ht].
  rewrite Forall_forall in H. apply list_elem_of_In in Hin.
  rewrite (H v Hin) in Ht. discriminate.
Qed.

(** The first non-empty candidate wins, whatever follows it. *)
Lemma first_nonempty_first (skipped rest : list pyval) (v : pyval) :
  Forall (fun v => truthy v = false) skipped ->
  truthy v = true ->
  first_nonempty_as_str str_other (skipped ++ v :: rest)%list
  = PStr (py_str str_other v).
Proof.
  unfold first_nonempty_as_str. intros Hs Hv.
  induction Hs as [|u skipped Hu _ IH]; cbn.
  - now rewrite Hv.
  - rewrite Hu. exact IH.
Qed.

Lemma get_attr_statuses_empty (wh : WhoisEntry) :
  absent_or_empty wh "status" = true -> get_attr_statuses wh = PNone.
Proof.
  unfold absent_or_empty, get_attr_statuses.
  destruct (wh !! "status") as [attr|]; [|reflexivity]. now intros ->.
Qed.

(** A present, non-empty status gives a non-empty sequence whose first
    element is the single status. *)
Lemma get_attr_statuses_head (wh : WhoisEntry) :
  absent_or_empty wh "status" = false ->
  exists x l,
    get_attr_statuses wh = PList (x :: l)
    /\ get_attr_generic_single wh "status" = x.
Proof.
  unfold absent_or_empty, get_attr_statuses, get_attr_generic_single.
  destruct (wh !! "status") as [attr|]; [|discriminate].
  intros Ht. destruct attr as [| | | | |[|x l]]; try discriminate;
    rewrite Ht; eexists _, _; split; reflexivity.
Qed.

(** *** The field mapping *)

Lemma field_mapping_inv (wh : WhoisEntry) (d : Domain) :
  field_mapping str_other wh = Ok d ->
  exists b,
    get_attr_dnssec wh = Ok b
    /\ d = {| admin := get_attr_generic_single wh "admin";
              creation_date := get_attr_generic_date wh "creation_date";
              dnssec := PBool b;
              expiration_date := get_attr_generic_date wh "expiration_date";
              last_updated := get_attr_generic_date wh "updated_date";
              name_servers := get_attr_name_servers str_other wh;
              owner := get_attr_owner str_other wh;
              registrar := get_attr_generic_single wh "registrar";
              reseller := PNone;
              registrant := get_attr_owner str_other wh;
              status := get_attr_generic_single wh "status";
              statuses := get_attr_statuses wh |}.
Proof.
  unfold field_mapping. destruct (get_attr_dnssec wh) as [b|e]; [|discriminate].
  intros [= <-]. now exists b.
Qed.

(** The mapping returns a record whenever the DNSSEC helper returns. *)
Lemma field_mapping_ok (wh : WhoisEntry) (b : bool) :
  get_attr_dnssec wh = Ok b -> exists d, field_mapping str_other wh = Ok d.
Proof. intros H. unfold field_mapping. rewrite H. now eexists. Qed.

(** The mapping is total on every entry whose DNSSEC field is absent,
    empty, a string or a sequence of strings, whatever the other fields
    hold. *)
Lemma field_mapping_total_strings (wh : WhoisEntry) :
  (forall attr, wh !! "dnssec" = Some attr -> truthy attr = true ->
     forallb is_str (as_list attr) = true) ->
  exists d, field_mapping str_other wh = Ok d.
Proof.
  intros H. destruct (absent_or_empty wh "dnssec") eqn:He.
  - eapply field_mapping_ok, get_attr_dnssec_empty, He.
  - unfold absent_or_empty in He.
    destruct (wh !! "dnssec") as [attr|] eqn:Hd; [|discriminate].
    apply negb_false_iff in He.
    eapply field_mapping_ok, get_attr_dnssec_strings; eauto.
Qed.

(** The mapping raises only [AttributeError], and only on a DNSSEC entry
    that is not a string. *)
Lemma field_mapping_raise (wh : WhoisEntry) (e : exn) :
  field_mapping str_other wh = Raise e ->
  e = AttributeError
  /\ exists attr, wh !! "dnssec" = Some attr
       /\ Exists (fun v => is_str v = false) (as_list attr).
Proof.
  unfold field_mapping. destruct (get_attr_dnssec wh) as [b|e'] eqn:H;
    [discriminate|].
  intros [= <-]. now apply get_attr_dnssec_raise.
Qed.

Variable ext_whois : string -> result (option WhoisEntry).

Lemma query_record_inv (domain : string) (wh : WhoisEntry) (d : Domain) :
  ext_whois domain = Ok (Some wh) ->
  query str_other ext_whois domain = Ok (Some d) ->
  field_mapping str_other wh = Ok d.
Proof.
  intros Hext. rewrite (query_returned _ _ _ _ Hext).
  destruct (field_mapping str_other wh); [|discriminate]. now intros [= <-].
Qed.

(** Claim C8.  In the record [query] returns for a present entry, the
    owner and the registrant are equal.  Both are the extraction that
    tries "name", "org" and "registrant_name" in this order through
    [get_attr_generic_single], takes the first non-empty value cast to a
    string, and is null when all three are empty. *)
Theorem owner_registrant_equal (domain : string) (wh : WhoisEntry) (d : Domain) :
  ext_whois domain = Ok (Some wh) ->
  query str_other ext_whois domain = Ok (Some d) ->
  owner d = registrant d
  /\ owner d = first_nonempty_as_str str_other (owner_candidates wh)
  /\ (forall skipped v rest,
        owner_candidates wh = (skipped ++ v :: rest)%list ->
        Forall (fun u => truthy u = false) skipped ->
        truthy v = true ->
        owner d = PStr (py_str str_other v))
  /\ (Forall (fun u => truthy u = false) (owner_candidates wh) ->
      owner d = PNone).
Proof.
  intros Hext Hq.
  destruct (field_mapping_inv _ _ (query_record_inv _ _ _ Hext Hq)) as (b & _ & ->).
  cbn [owner registrant]. rewrite get_attr_owner_spec. repeat split.
  - intros skipped v rest -> Hs Hv. now apply first_nonempty_first.
  - apply first_nonempty_none.
Qed.

(** Claim C10, as amended.  In the record [query] returns for a present
    entry, either [statuses] and [status] are both null, which is the case
    exactly when the raw "status" field is absent or empty, or [statuses]
    is a non-empty sequence and [status] is its first element.  Both are
    functions of the raw "status" field alone.  A null [statuses] always
    comes with a null [status].  The converse holds except when the
    sequence starts with a null entry: [status] is null exactly when
    [statuses] is null or its first element is null.  For a raw value the
    inbound contract allows (no null inside a sequence) one is therefore
    null exactly when the other is. *)
Theorem status_statuses_agree (domain : string) (wh : WhoisEntry) (d : Domain) :
  ext_whois domain = Ok (Some wh) ->
  query str_other ext_whois domain = Ok (Some d) ->
  ((statuses d = PNone /\ status d = PNone)
   \/ (exists x l, statuses d = PList (x :: l) /\ status d = x))
  /\ ((statuses d = PNone /\ status d = PNone)
      <-> absent_or_empty wh "status" = true)
  /\ (forall wh' : WhoisEntry,
        wh' !! "status" = wh !! "status" ->
        get_attr_generic_single wh' "status" = status d
        /\ get_attr_statuses wh' = statuses d)
  /\ (statuses d = PNone -> status d = PNone)
  /\ (status d = PNone
      <-> statuses d = PNone \/ exists l, statuses d = PList (PNone :: l))
  /\ ((forall attr, wh !! "status" = Some attr -> contract_value attr = true) ->
      (status d = PNone <-> statuses d = PNone)).
Proof.
  intros Hext Hq.
  destruct (field_mapping_inv _ _ (query_record_inv _ _ _ Hext Hq)) as (b & _ & ->).
  cbn [status statuses].
  destruct (absent_or_empty wh "status") eqn:He.
  - rewrite (get_attr_statuses_empty _ He), (get_attr_generic_single_empty _ _ He).
    refine (conj _ (conj _ (conj _ (conj _ (conj _ _))))); try tauto.
    intros wh' Hwh'.
    assert (absent_or_empty wh' "status" = true) as He'
      by (unfold absent_or_empty in *; now rewrite Hwh').
    split; [now apply get_attr_generic_single_empty
           | now apply get_attr_statuses_empty].
  - destruct (get_attr_statuses_head _ He) as (x & l & Hs & Hx).
    rewrite Hs, Hx.
    refine (conj _ (conj _ (conj _ (conj _ (conj _ _))))).
    + right. now exists x, l.
    + split; [intros [H _]; discriminate | discriminate].
    + intros wh' Hwh'. rewrite <- Hs, <- Hx.
      unfold get_attr_generic_single, get_attr_statuses. now rewrite Hwh'.
    + discriminate.
    + split.
      * intros ->. right. now exists l.
      * intros [H | [l' H]]; [discriminate | now injection H].
    + intros H. split; [|discriminate]. intros ->. exfalso.
      clear Hq. unfold absent_or_empty, get_attr_generic_single in He, Hx.
      destruct (wh !! "status") as [attr|] eqn:Hattr; [|discriminate].
      specialize (H attr eq_refl). rewrite He in Hx.
      destruct attr as [| | | | |[|y l']]; try discriminate.
      subst y. discriminate.
Qed.

End MappingFacts.

(** ** The sample entry, and entries the mapping fails on *)

(** Claim C5, as amended.  For the sample entry [query] returns the record
    with admin "Admin", the two dates, [last_updated] the first element of
    the [updated_date] list, the lower-cased name servers, owner and
    registrant "registrant@example.com", registrar "My Registrar", DNSSEC
    true, status "OK", no reseller, and [statuses] the one-element sequence
    ["OK"]: the single raw value is wrapped, not kept as a scalar. *)
Theorem query_mock_data (str_other : pyval -> string) (domain : string) :
  query str_other mock_whois domain = Ok (Some mock_domain)
  /\ (exists later,
        mock_data !! "updated_date"
        = Some (PList (last_updated mock_domain :: later)))
  /\ statuses mock_domain = PList [PStr "OK"].
Proof.
  split; [vm_compute; reflexivity|].
  split; [eexists; vm_compute; reflexivity | reflexivity].
Qed.

(** With one attribute only, every other field is null and DNSSEC is
    false. *)
Example query_missing_some_attrs (str_other : pyval -> string) (domain : string) :
  query str_other mock_whois_missing_some_attrs domain
  = Ok (Some {| admin := PNone;
                creation_date := PNone;
                dnssec := PBool false;
                expiration_date := PNone;
                last_updated :=
                  PDatetime (mk_datetime 2022 1 1 0 0 0 0
                               (Some "Europe/Amsterdam"));
                name_servers := PNone;
                owner := PNone;
                registrar := PNone;
                reseller := PNone;
                registrant := PNone;
                status := PNone;
                statuses := PNone |}).
Proof. vm_compute. reflexivity. Qed.

Example query_empty (str_other : pyval -> string) (domain : string) :
  query str_other mock_whois_empty domain = Ok None.
Proof. reflexivity. Qed.

(** For the sample entry [statuses] is not the scalar "OK". *)
Lemma query_mock_data_statuses_not_scalar :
  exists d,
    query str_none mock_whois "home-assistant.io" = Ok (Some d)
    /\ statuses d = PList [PStr "OK"]
    /\ statuses d <> PStr "OK".
Proof.
  exists mock_domain.
  split; [vm_compute; reflexivity | split; [reflexivity | discriminate]].
Qed.

(** Claim C1.  The claim makes the field mapping total for every value the
    inbound contract allows, the DNSSEC field included.  It is total for
    every field but DNSSEC, whose helper returns only when the entries it
    reads are strings ([field_mapping_total_strings],
    [field_mapping_raise]).  On an entry whose DNSSEC field is the boolean
    [True], [get_attr_dnssec] calls [True.lower()], and [query] raises
    [AttributeError] instead of returning a record with a null field. *)
Theorem query_dnssec_bool_raises (str_other : pyval -> string) (domain : string) :
  contract_value (PBool true) = true
  /\ query str_other (fun _ => Ok (Some {[ "dnssec" := PBool true ]})) domain
     = Raise AttributeError.
Proof. split; vm_compute; reflexivity. Qed.

(** The sibling helper casts with [str] first and returns on the same
    value. *)
Lemma get_attr_name_servers_bool (str_other : pyval -> string) :
  get_attr_name_servers str_other {[ "name_servers" := PBool true ]}
  = PList [PStr (lower (str_other (PBool true)))].
Proof. vm_compute. reflexivity. Qed.

(** Claim C4.  Every failure of the external lookup that is not one of the
    three recognised messages does make [query] raise [GenericWhoisError]
    ([query_generic_error]), and a failing lookup lets nothing else escape
    ([query_lookup_failure_escapes]).  The claim also lets no other
    exception ever leave [query]: when the lookup returns an entry whose
    DNSSEC field is ["unsigned", True], the [AttributeError] of the field
    mapping leaves [query], outside the [try] statement. *)
Theorem query_attribute_error_escapes (str_other : pyval -> string)
    (domain : string) :
  contract_value (PList [PStr "unsigned"; PBool true]) = true
  /\ query str_other
       (fun _ => Ok (Some {[ "dnssec" := PList [PStr "unsigned"; PBool true] ]}))
       domain
     = Raise AttributeError
  /\ AttributeError <> WhoisUnknownTLD
  /\ AttributeError <> GenericWhoisError.
Proof.
  split; [reflexivity|]. split; [vm_compute; reflexivity|].
  split; discriminate.
Qed.

(** ** Instances *)

Lemma query_unknown_tld_witness :
  query str_none
    (fun _ => Raise (PywhoisError "This TLD has no whois server."))
    "example.invalid"
  = Raise WhoisUnknownTLD.
Proof.
  apply (query_unknown_tld str_none _ "example.invalid"
           "This TLD has no whois server.").
  - reflexivity.
  - right. exists "", ".". reflexivity.
Defined.

(** A message with "No match for" and an unknown-TLD message: the lookup
    raises, [query] does not return the absent record. *)
Lemma query_no_match_unknown_tld :
  contains "No match for"
    "No match for domain. This TLD has no whois server"
  /\ query str_none
       (fun _ => Raise (PywhoisError
                         "No match for domain. This TLD has no whois server"))
       "example.invalid"
     = Raise WhoisUnknownTLD
  /\ Raise WhoisUnknownTLD <> @Ok (option Domain) None.
Proof.
  split; [apply str_in_spec; vm_compute; reflexivity|].
  split; [vm_compute; reflexivity | discriminate].
Qed.

(** The empty string: kept inside a sequence, dropped as a bare scalar. *)
Lemma generic_single_empty_string_differs :
  is_scalar (PStr "") = true
  /\ get_attr_generic_single {[ "admin" := PList [PStr ""] ]} "admin" = PStr ""
  /\ get_attr_generic_single {[ "admin" := PStr "" ]} "admin" = PNone
  /\ PStr "" <> PNone.
Proof.
  split; [reflexivity|]. split; [vm_compute; reflexivity|].
  split; [vm_compute; reflexivity | discriminate].
Qed.

Lemma generic_single_list_vs_scalar_witness :
  get_attr_generic_single {[ "admin" := PList [PStr "Admin"] ]} "admin"
  = get_attr_generic_single {[ "admin" := PStr "Admin" ]} "admin".
Proof.
  apply (generic_single_list_vs_scalar "admin"
           {[ "admin" := PList [PStr "Admin"] ]}
           {[ "admin" := PStr "Admin" ]} (PStr "Admin")).
  - reflexivity.
  - vm_compute. reflexivity.
  - vm_compute. reflexivity.
  - left. reflexivity.
Defined.

Lemma owner_registrant_equal_witness :
  owner mock_domain = registrant mock_domain.
Proof.
  apply (owner_registrant_equal str_none mock_whois "home-assistant.io"
           mock_data mock_domain).
  - reflexivity.
  - vm_compute. reflexivity.
Defined.

(** A sequence that starts with a null entry: [status] is null and
    [statuses] is not. *)
Lemma status_null_statuses_present :
  exists d,
    query str_none (fun _ => Ok (Some {[ "status" := PList [PNone] ]}))
      "example.com"
    = Ok (Some d)
    /\ status d = PNone
    /\ statuses d = PList [PNone]
    /\ statuses d <> PNone.
Proof.
  eexists. split; [vm_compute; reflexivity|].
  split; [reflexivity|]. split; [reflexivity | discriminate].
Qed.

Lemma status_statuses_agree_witness :
  (statuses mock_domain = PNone /\ status mock_domain = PNone)
  \/ (exists x l, statuses mock_domain = PList (x :: l) /\ status mock_domain = x).
Proof.
  apply (status_statuses_agree str_none mock_whois "home-assistant.io"
           mock_data mock_domain).
  - reflexivity.
  - vm_compute. reflexivity.
Defined.

(** ** Further properties of the helpers *)

(** *** Dates *)

(** Property X5.  [get_attr_generic_date] gives a [datetime] or [None],
    and it gives the timestamp [d] exactly when the raw field is [d] itself
    or a sequence whose first element is [d].  A string where a date was
    expected, or a sequence that starts with one, gives [None], whatever
    follows in the sequence. *)
Theorem get_attr_generic_date_spec (wh : WhoisEntry) (name : string) :
  date_or_none (get_attr_generic_date wh name) = true
  /\ (forall d,
        get_attr_generic_date wh name = PDatetime d <->
        wh !! name = Some (PDatetime d)
        \/ exists later, wh !! name = Some (PList (PDatetime d :: later))).
Proof.
  unfold get_attr_generic_date, get_attr_generic_single.
  destruct (wh !! name) as [attr|]; cbn.
  - destruct attr as [| b | n | s | d' | [|x l]]; cbn;
      try destruct b; try destruct (Z.eqb n 0); try destruct (String.eqb s "");
      cbn; try destruct x; cbn;
      (split; [reflexivity|]); intros d0;
      (split;
       [ try discriminate; intros [= <-]; eauto
       | intros [H | [later H]]; try discriminate; now injection H as -> ]).
  - split; [reflexivity|]. intros d. split; [discriminate|].
    intros [H | [later H]]; discriminate.
Qed.

(** *** DNSSEC: which entries the generator reads *)

Lemma any_not_unsigned_skip (pre l : list pyval) :
  forallb unsigned_entry pre = true ->
  any_not_unsigned (pre ++ l)%list = any_not_unsigned l.
Proof.
  induction pre as [|v pre IH]; [reflexivity|].
  intros [Hv Hpre]%andb_true_iff. destruct v; try discriminate.
  cbn in *. rewrite Hv. cbn. now apply IH.
Qed.

(** Every sequence is all "unsigned", or splits at its first entry that is
    not. *)
Lemma unsigned_prefix (l : list pyval) :
  forallb unsigned_entry l = true
  \/ exists pre v rest,
       l = (pre ++ v :: rest)%list
       /\ forallb unsigned_entry pre = true
       /\ unsigned_entry v = false.
Proof.
  induction l as [|v l IH]; [now left|].
  destruct (unsigned_entry v) eqn:Hv.
  - destruct IH as [H | (pre & w & rest & -> & Hpre & Hw)].
    + left. cbn. now rewrite Hv.
    + right. exists (v :: pre), w, rest. cbn. now rewrite Hv.
  - right. now exists [], v, l.
Qed.

(** What the generator does at the first entry that is not "unsigned". *)
Lemma any_not_unsigned_at (v : pyval) (rest : list pyval) :
  unsigned_entry v = false ->
  any_not_unsigned (v :: rest) =
  if is_str v then Ok true else Raise AttributeError.
Proof. destruct v; cbn; try reflexivity. now intros ->. Qed.

Lemma any_not_unsigned_all (l : list pyval) :
  forallb unsigned_entry l = true -> any_not_unsigned l = Ok false.
Proof.
  intros H. rewrite <- (app_nil_r l). now rewrite any_not_unsigned_skip.
Qed.

(** Property X7.  [get_attr_dnssec] returns [False] exactly when the field
    is absent or empty, or every entry is the string "unsigned" in some
    casing. *)
Theorem get_attr_dnssec_false_iff (wh : WhoisEntry) :
  get_attr_dnssec wh = Ok false <->
  absent_or_empty wh "dnssec" = true
  \/ exists attr,
       wh !! "dnssec" = Some attr
       /\ forallb unsigned_entry (as_list attr) = true.
Proof.
  unfold get_attr_dnssec, absent_or_empty.
  destruct (wh !! "dnssec") as [attr|]; [|split; [now left | reflexivity]].
  destruct (negb (truthy attr)); [split; [now left | reflexivity]|].
  split.
  - intros H. right. exists attr. split; [reflexivity|].
    destruct (unsigned_prefix (as_list attr))
      as [Hall | (pre & v & rest & Hl & Hpre & Hv)]; [exact Hall|].
    rewrite Hl, (any_not_unsigned_skip _ _ Hpre), (any_not_unsigned_at _ _ Hv) in H.
    destruct (is_str v); discriminate.
  - intros [H | (attr' & [= <-] & H)]; [discriminate|].
    now apply any_not_unsigned_all.
Qed.

(** Property X8.  [any] stops at the first entry that is a string other
    than "unsigned": [get_attr_dnssec] returns [True] there and reads
    nothing after it, so later entries may hold anything. *)
Theorem get_attr_dnssec_short_circuit (wh : WhoisEntry) (pre rest : list pyval)
    (s : string) :
  wh !! "dnssec" = Some (PList (pre ++ PStr s :: rest)%list) ->
  forallb unsigned_entry pre = true ->
  String.eqb (lower s) "unsigned" = false ->
  get_attr_dnssec wh = Ok true.
Proof.
  intros Hwh Hpre Hs. unfold get_attr_dnssec. rewrite Hwh.
  replace (negb (truthy (PList (pre ++ PStr s :: rest)%list))) with false
    by (now destruct pre).
  cbn [as_list]. rewrite (any_not_unsigned_skip _ _ Hpre).
  now rewrite any_not_unsigned_at.
Qed.

(** Property X9.  [get_attr_dnssec] raises exactly when the field is not
    empty and its first entry that is not the string "unsigned" is not a
    string at all; the exception is then [AttributeError]. *)
Theorem get_attr_dnssec_raise_iff (wh : WhoisEntry) (e : exn) :
  get_attr_dnssec wh = Raise e <->
  e = AttributeError
  /\ exists attr pre v rest,
       wh !! "dnssec" = Some attr
       /\ truthy attr = true
       /\ as_list attr = (pre ++ v :: rest)%list
       /\ forallb unsigned_entry pre = true
       /\ is_str v = false.
Proof.
  unfold get_attr_dnssec. split.
  - destruct (wh !! "dnssec") as [attr|]; [|discriminate].
    destruct (truthy attr) eqn:Ht; [|discriminate]. cbn.
    destruct (unsigned_prefix (as_list attr))
      as [Hall | (pre & v & rest & Hl & Hpre & Hv)].
    + now rewrite (any_not_unsigned_all _ Hall).
    + rewrite Hl, (any_not_unsigned_skip _ _ Hpre), (any_not_unsigned_at _ _ Hv).
      destruct (is_str v) eqn:Hstr; [discriminate|]. intros [= <-].
      split; [reflexivity|]. now exists attr, pre, v, rest.
  - intros (-> & attr & pre & v & rest & -> & Ht & Hl & Hpre & Hstr).
    rewrite Ht. cbn. rewrite Hl, (any_not_unsigned_skip _ _ Hpre).
    rewrite any_not_unsigned_at, Hstr; [reflexivity|].
    destruct v; try reflexivity; discriminate.
Qed.

Lemma any_not_unsigned_lower (l : list string) :
  any_not_unsigned (map PStr l)
  = Ok (existsb (fun s => negb (String.eqb s "unsigned")) (map lower l)).
Proof.
  induction l as [|s l IH]; [reflexivity|]. cbn.
  destruct (negb (String.eqb (lower s) "unsigned")); [reflexivity | exact IH].
Qed.

(** Property X10.  The DNSSEC flag does not depend on the casing of the
    entries: two sequences of strings that are equal once lower-cased give
    the same result. *)
Theorem get_attr_dnssec_case_insensitive (wh1 wh2 : WhoisEntry)
    (l1 l2 : list string) :
  wh1 !! "dnssec" = Some (PList (map PStr l1)) ->
  wh2 !! "dnssec" = Some (PList (map PStr l2)) ->
  map lower l1 = map lower l2 ->
  get_attr_dnssec wh1 = get_attr_dnssec wh2.
Proof.
  intros H1 H2 Hl. unfold get_attr_dnssec. rewrite H1, H2.
  cbn [as_list]. rewrite !any_not_unsigned_lower, Hl.
  destruct l1, l2; try discriminate; reflexivity.
Qed.

(** *** Normal forms, the unused helper, and what the mapping reads *)

Lemma as_list_truthy (attr : pyval) :
  truthy attr = true -> exists x l, as_list attr = x :: l.
Proof.
  destruct attr as [| | | | |[|x l]]; try discriminate; intros _;
    eexists _, _; reflexivity.
Qed.

Section RecordFacts.

Variable str_other : pyval -> string.

(** Property X11.  The name servers [get_attr_name_servers] returns are in
    normal form: put back into the entry as its "name_servers" field, they
    come out unchanged. *)
Theorem get_attr_name_servers_idempotent (wh : WhoisEntry) :
  get_attr_name_servers str_other
    (<[ "name_servers" := get_attr_name_servers str_other wh ]> wh)
  = get_attr_name_servers str_other wh.
Proof.
  unfold get_attr_name_servers at 1. rewrite lookup_insert_eq.
  unfold get_attr_name_servers.
  destruct (wh !! "name_servers") as [attr|]; [|reflexivity].
  destruct (truthy attr) eqn:Ht; [|reflexivity]. cbn [negb].
  destruct (as_list_truthy _ Ht) as (x & l & ->). cbn [map truthy negb as_list].
  f_equal. cbn [py_str]. rewrite lower_idem. f_equal.
  rewrite map_map. apply map_ext. intros n. cbn. now rewrite lower_idem.
Qed.

(** Property X12.  The statuses [get_attr_statuses] returns are in normal
    form as well: put back as the "status" field they come out unchanged,
    and the single status read from them is the one read from the raw
    field. *)
Theorem get_attr_statuses_idempotent (wh : WhoisEntry) :
  get_attr_statuses (<[ "status" := get_attr_statuses wh ]> wh)
  = get_attr_statuses wh
  /\ get_attr_generic_single (<[ "status" := get_attr_statuses wh ]> wh) "status"
     = get_attr_generic_single wh "status".
Proof.
  unfold get_attr_statuses at 1, get_attr_generic_single at 1.
  rewrite lookup_insert_eq. unfold get_attr_statuses, get_attr_generic_single.
  destruct (wh !! "status") as [attr|]; [|now split].
  destruct (truthy attr) eqn:Ht; [|now split]. cbn [negb].
  destruct (as_list_truthy _ Ht) as (x & l & Hl). rewrite Hl. cbn.
  split; [reflexivity|].
  destruct attr as [| | | | |[|y l']]; try discriminate;
    cbn in Hl; now injection Hl as <- <-.
Qed.

(** [get_attr_admin] falls back to "admin_organization" only when "admin"
    yields nothing: it is the string of the single "admin" value when that
    is non-empty, else the string of the single "admin_organization" value
    when that is non-empty, else [None]. *)
Lemma get_attr_admin_fallback (wh : WhoisEntry) :
  (truthy (get_attr_generic_single wh "admin") = true ->
   get_attr_admin str_other wh
   = PStr (py_str str_other (get_attr_generic_single wh "admin")))
  /\ (truthy (get_attr_generic_single wh "admin") = false ->
      truthy (get_attr_generic_single wh "admin_organization") = true ->
      get_attr_admin str_other wh
      = PStr (py_str str_other (get_attr_generic_single wh "admin_organization")))
  /\ (truthy (get_attr_generic_single wh "admin") = false ->
      truthy (get_attr_generic_single wh "admin_organization") = false ->
      get_attr_admin str_other wh = PNone).
Proof.
  unfold get_attr_admin, py_or.
  repeat split; intros Ha; rewrite Ha; try intros Ho; now rewrite ?Ha, ?Ho.
Qed.

Lemma get_attr_generic_single_ext (wh1 wh2 : WhoisEntry) (name : string) :
  wh1 !! name = wh2 !! name ->
  get_attr_generic_single wh1 name = get_attr_generic_single wh2 name.
Proof. unfold get_attr_generic_single. now intros ->. Qed.

(** Property X4.  The field mapping reads eleven keys of the entry and no
    other: two entries that agree on them give the same record, or raise
    the same exception.  Keys such as "domain_name" or "admin_organization"
    never change the result. *)
Theorem field_mapping_reads_only (wh1 wh2 : WhoisEntry) :
  Forall (fun key => wh1 !! key = wh2 !! key) read_keys ->
  field_mapping str_other wh1 = field_mapping str_other wh2.
Proof.
  unfold read_keys. intros H.
  repeat (apply Forall_cons in H; destruct H as [? H]). clear H.
  unfold field_mapping, get_attr_dnssec, get_attr_statuses, get_attr_owner,
    get_attr_name_servers, get_attr_generic_date, get_attr_generic_single.
  repeat match goal with
         | Hk : wh1 !! _ = wh2 !! _ |- _ => rewrite Hk; clear Hk
         end.
  reflexivity.
Qed.

Variable ext_whois : string -> result (option WhoisEntry).

(** A record comes from a present entry only. *)
Lemma query_record_source (domain : string) (d : Domain) :
  query str_other ext_whois domain = Ok (Some d) ->
  exists wh,
    ext_whois domain = Ok (Some wh) /\ field_mapping str_other wh = Ok d.
Proof.
  unfold query, lookup.
  destruct (ext_whois domain) as [[wh|]|e]; cbn.
  - intros H. exists wh. split; [reflexivity|].
    destruct (field_mapping str_other wh); [|discriminate].
    now injection H as ->.
  - discriminate.
  - destruct e as [msg| | | |]; try discriminate.
    destruct (_ || _); [discriminate|].
    destruct (str_in "No match for" msg); discriminate.
Qed.

Lemma get_attr_generic_date_shape (wh : WhoisEntry) (name : string) :
  date_or_none (get_attr_generic_date wh name) = true.
Proof.
  unfold get_attr_generic_date.
  destruct (get_attr_generic_single wh name); reflexivity.
Qed.

(** Property X6.  Every record [query] returns has the same shape: the
    three dates are a [datetime] or [None], the reseller is [None], DNSSEC
    is a boolean, owner and registrant are a string or [None], the name
    servers are [None] or a non-empty sequence of lower-case strings, and
    the statuses are [None] or a non-empty sequence: an empty sequence is
    never returned. *)
Theorem query_record_shape (domain : string) (d : Domain) :
  query str_other ext_whois domain = Ok (Some d) ->
  date_or_none (creation_date d) = true
  /\ date_or_none (expiration_date d) = true
  /\ date_or_none (last_updated d) = true
  /\ reseller d = PNone
  /\ (exists b, dnssec d = PBool b)
  /\ (owner d = PNone \/ exists s, owner d = PStr s)
  /\ (registrant d = PNone \/ exists s, registrant d = PStr s)
  /\ (name_servers d = PNone
      \/ exists n ns,
           name_servers d = PList (map PStr (n :: ns))
           /\ Forall (fun s => lower s = s) (n :: ns))
  /\ (statuses d = PNone \/ exists x l, statuses d = PList (x :: l)).
Proof.
  intros (wh & _ & Hd)%query_record_source.
  apply field_mapping_inv in Hd as (b & _ & ->). cbn.
  repeat apply conj; try apply get_attr_generic_date_shape;
    try reflexivity.
  - now exists b.
  - unfold get_attr_owner. destruct (truthy _); eauto.
  - unfold get_attr_owner. destruct (truthy _); eauto.
  - unfold get_attr_name_servers.
    destruct (wh !! "name_servers") as [attr|]; [|now left].
    destruct (truthy attr) eqn:Ht; [|now left]. right.
    destruct (as_list_truthy _ Ht) as (x & l & ->). cbn [negb map].
    exists (lower (py_str str_other x)),
           (map (fun n => lower (py_str str_other n)) l).
    split; [cbn; now rewrite map_map|].
    constructor; [apply lower_idem|].
    change (map ?f ?l) with (f <$> l).
    apply Forall_fmap, Forall_true. intros n. apply lower_idem.
  - destruct (absent_or_empty wh "status") eqn:He.
    + left. now apply get_attr_statuses_empty.
    + right. destruct (get_attr_statuses_head _ He) as (x & l & -> & _).
      now exists x, l.
Qed.

(** Property X3.  When the library returns an entry whose DNSSEC field is
    absent, empty, a string or a sequence of strings, [query] returns a
    record, whatever the other fields hold; its DNSSEC flag tells whether
    some entry differs from "unsigned" once lower-cased. *)
Theorem query_returns_record (domain : string) (wh : WhoisEntry) :
  ext_whois domain = Ok (Some wh) ->
  (forall attr, wh !! "dnssec" = Some attr -> truthy attr = true ->
     forallb is_str (as_list attr) = true) ->
  exists d,
    query str_other ext_whois domain = Ok (Some d)
    /\ dnssec d
       = PBool match wh !! "dnssec" with
               | Some attr => truthy attr && existsb signed_entry (as_list attr)
               | None => false
               end.
Proof.
  intros Hext Hstr. rewrite (query_returned _ _ _ _ Hext).
  assert (get_attr_dnssec wh
          = Ok match wh !! "dnssec" with
               | Some attr => truthy attr && existsb signed_entry (as_list attr)
               | None => false
               end) as Hd.
  { destruct (wh !! "dnssec") as [attr|] eqn:Hattr.
    - destruct (truthy attr) eqn:Ht.
      + now apply get_attr_dnssec_strings; auto.
      + apply get_attr_dnssec_empty. unfold absent_or_empty. now rewrite Hattr, Ht.
    - apply get_attr_dnssec_empty. unfold absent_or_empty. now rewrite Hattr. }
  unfold field_mapping. rewrite Hd. cbn. eexists. split; reflexivity.
Qed.

(** Property X2.  [query] raises [WhoisUnknownTLD] exactly when the lookup
    raised its [PywhoisError] with one of the two messages that mean an
    unknown TLD: never after the lookup returned, and never for another
    class of exception, whatever its message. *)
Theorem query_raises_unknown_tld_iff (domain : string) :
  query str_other ext_whois domain = Raise WhoisUnknownTLD <->
  exists msg,
    ext_whois domain = Raise (PywhoisError msg)
    /\ (contains "No whois server is known for this kind of object" msg
        \/ contains "This TLD has no whois server" msg).
Proof.
  split.
  - unfold query, lookup.
    destruct (ext_whois domain) as [[wh|]|e] eqn:Hext; cbn.
    + destruct (field_mapping str_other wh) as [d|e] eqn:Hm; [discriminate|].
      apply field_mapping_raise in Hm as [-> _]. discriminate.
    + discriminate.
    + destruct e as [msg| | | |]; try discriminate.
      destruct (str_in "No whois server is known for this kind of object" msg)
        eqn:H1; cbn.
      * intros _. exists msg. split; [reflexivity|]. left. now apply str_in_spec.
      * destruct (str_in "This TLD has no whois server" msg) eqn:H2.
        -- intros _. exists msg. split; [reflexivity|]. right.
           now apply str_in_spec.
        -- destruct (str_in "No match for" msg); discriminate.
  - intros (msg & Hext & Hmsg). apply query_lookup_raise.
    rewrite (lookup_pywhois_error _ _ _ Hext).
    destruct Hmsg as [H | H]; apply str_in_spec in H; rewrite H;
      [reflexivity | now rewrite orb_true_r].
Qed.

(** Property X1.  [query] raises [GenericWhoisError] exactly when the
    lookup raised and the exception is not a [PywhoisError] with one of the
    three recognised messages.  An exception of another class is never
    classified by its message: even with "No match for" in it, it gives
    [GenericWhoisError]. *)
Theorem query_raises_generic_iff (domain : string) :
  query str_other ext_whois domain = Raise GenericWhoisError <->
  exists e,
    ext_whois domain = Raise e
    /\ (forall msg, e = PywhoisError msg ->
          ~ contains "No whois server is known for this kind of object" msg
          /\ ~ contains "This TLD has no whois server" msg
          /\ ~ contains "No match for" msg).
Proof.
  split.
  - unfold query, lookup.
    destruct (ext_whois domain) as [[wh|]|e] eqn:Hext; cbn.
    + destruct (field_mapping str_other wh) as [d|e] eqn:Hm; [discriminate|].
      apply field_mapping_raise in Hm as [-> _]. discriminate.
    + discriminate.
    + intros H. exists e. split; [reflexivity|]. intros msg ->.
      destruct (str_in "No whois server is known for this kind of object" msg)
        eqn:H1; [discriminate|].
      destruct (str_in "This TLD has no whois server" msg) eqn:H2;
        [discriminate|].
      destruct (str_in "No match for" msg) eqn:H3; [discriminate|].
      now apply str_in_false in H1, H2, H3.
  - intros (e & Hext & Hmsg). now apply (query_generic_error _ _ _ e).
Qed.

(** Property X13.  Nothing but [WhoisUnknownTLD], [GenericWhoisError] and
    the [AttributeError] of the DNSSEC helper leaves [query]: an exception
    of the library is never passed on as it is, and [AttributeError] occurs
    only after the lookup has returned an entry. *)
Theorem query_raise_cases (domain : string) (x : exn) :
  query str_other ext_whois domain = Raise x ->
  x = WhoisUnknownTLD
  \/ x = GenericWhoisError
  \/ (x = AttributeError
      /\ exists wh,
           ext_whois domain = Ok (Some wh)
           /\ get_attr_dnssec wh = Raise AttributeError).
Proof.
  unfold query, lookup.
  destruct (ext_whois domain) as [[wh|]|e] eqn:Hext; cbn.
  - unfold field_mapping.
    destruct (get_attr_dnssec wh) as [b|e] eqn:Hd; [discriminate|]. cbn.
    intros [= <-]. right. right.
    destruct (get_attr_dnssec_raise _ _ Hd) as [-> _]. eauto.
  - discriminate.
  - destruct e as [msg| | | |]; cbn; try (intros [= <-]; auto).
    destruct (_ || _); [intros [= <-]; auto|].
    destruct (str_in "No match for" msg); [discriminate | intros [= <-]; auto].
Qed.

(** Property X14.  The "admin" field of the record is the single raw
    "admin" value, not the result of [get_attr_admin]: the two agree when
    that value is a non-empty string, and "admin_organization", which only
    [get_attr_admin] reads, never changes what [query] returns. *)
Theorem query_admin_field (domain : string) (wh : WhoisEntry) (org : pyval) :
  ext_whois domain = Ok (Some wh) ->
  (forall d, query str_other ext_whois domain = Ok (Some d) ->
     admin d = get_attr_generic_single wh "admin"
     /\ (forall s, admin d = PStr s -> s <> "" ->
           get_attr_admin str_other wh = admin d))
  /\ field_mapping str_other (<[ "admin_organization" := org ]> wh)
     = field_mapping str_other wh.
Proof.
  intros Hext. split.
  - intros d Hq. rewrite (query_returned _ _ _ _ Hext) in Hq.
    destruct (field_mapping str_other wh) as [d'|] eqn:Hm; [|discriminate].
    injection Hq as ->. apply field_mapping_inv in Hm as (b & _ & ->). cbn.
    split; [reflexivity|]. intros s Hs Hne.
    assert (truthy (PStr s) = true) as Ht
      by (cbn; now destruct (String.eqb_spec s "")).
    unfold get_attr_admin, py_or. rewrite Hs, Ht, Ht. reflexivity.
  - unfold field_mapping, get_attr_dnssec, get_attr_statuses, get_attr_owner,
      get_attr_name_servers, get_attr_generic_date, get_attr_generic_single.
    now rewrite !lookup_insert_ne by discriminate.
Qed.

End RecordFacts.

(** ** Instances of the further properties *)

Lemma get_attr_dnssec_short_circuit_witness :
  get_attr_dnssec
    {[ "dnssec" := PList [PStr "Unsigned"; PStr "signedDelegation"; PBool true] ]}
  = Ok true.
Proof.
  apply (get_attr_dnssec_short_circuit _ [PStr "Unsigned"] [PBool true]
           "signedDelegation").
  - vm_compute. reflexivity.
  - reflexivity.
  - reflexivity.
Defined.

Lemma get_attr_dnssec_case_insensitive_witness :
  get_attr_dnssec {[ "dnssec" := PList [PStr "UNSIGNED"; PStr "Signed"] ]}
  = get_attr_dnssec {[ "dnssec" := PList [PStr "unsigned"; PStr "SIGNED"] ]}.
Proof.
  apply (get_attr_dnssec_case_insensitive _ _
           ["UNSIGNED"; "Signed"] ["unsigned"; "SIGNED"]).
  - vm_compute. reflexivity.
  - vm_compute. reflexivity.
  - reflexivity.
Defined.

Lemma field_mapping_reads_only_witness :
  field_mapping str_none mock_data
  = field_mapping str_none
      (<[ "admin_organization" := PStr "Org" ]> (delete "domain_name" mock_data)).
Proof.
  apply (field_mapping_reads_only str_none mock_data
           (<[ "admin_organization" := PStr "Org" ]>
              (delete "domain_name" mock_data))).
  repeat constructor; vm_compute; reflexivity.
Defined.

Lemma query_record_shape_witness :
  date_or_none (creation_date mock_domain) = true
  /\ date_or_none (expiration_date mock_domain) = true
  /\ date_or_none (last_updated mock_domain) = true
  /\ reseller mock_domain = PNone
  /\ (exists b, dnssec mock_domain = PBool b)
  /\ (owner mock_domain = PNone \/ exists s, owner mock_domain = PStr s)
  /\ (registrant mock_domain = PNone
      \/ exists s, registrant mock_domain = PStr s)
  /\ (name_servers mock_domain = PNone
      \/ exists n ns,
           name_servers mock_domain = PList (map PStr (n :: ns))
           /\ Forall (fun s => lower s = s) (n :: ns))
  /\ (statuses mock_domain = PNone
      \/ exists x l, statuses mock_domain = PList (x :: l)).
Proof.
  apply (query_record_shape str_none mock_whois "home-assistant.io" mock_domain).
  vm_compute. reflexivity.
Defined.

Lemma query_returns_record_witness :
  exists d,
    query str_none mock_whois "home-assistant.io" = Ok (Some d)
    /\ dnssec d
       = PBool match mock_data !! "dnssec" with
               | Some attr => truthy attr && existsb signed_entry (as_list attr)
               | None => false
               end.
Proof.
  apply (query_returns_record str_none mock_whois "home-assistant.io" mock_data).
  - reflexivity.
  - intros attr H _. vm_compute in H. injection H as <-. reflexivity.
Defined.

Lemma query_raise_cases_witness :
  GenericWhoisError = WhoisUnknownTLD
  \/ GenericWhoisError = GenericWhoisError
  \/ (GenericWhoisError = AttributeError
      /\ exists wh,
           Raise (OtherException "TimeoutError" "No match for") = Ok (Some wh)
           /\ get_attr_dnssec wh = Raise AttributeError).
Proof.
  apply (query_raise_cases str_none
           (fun _ => Raise (OtherException "TimeoutError" "No match for"))
           "example.com" GenericWhoisError).
  reflexivity.
Defined.

Lemma query_admin_field_witness :
  (forall d, query str_none mock_whois "home-assistant.io" = Ok (Some d) ->
     admin d = get_attr_generic_single mock_data "admin"
     /\ (forall s, admin d = PStr s -> s <> "" ->
           get_attr_admin str_none mock_data = admin d))
  /\ field_mapping str_none (<[ "admin_organization" := PStr "Org" ]> mock_data)
     = field_mapping str_none mock_data.
Proof.
  apply (query_admin_field str_none mock_whois "home-assistant.io" mock_data
           (PStr "Org")).
  reflexivity.
Defined.
